(** * py_speed.py: timing a batch of dictionary insertions

    A shallow embedding of [src/py_speed.py].  The script draws random
    values, inserts [NUMBER_OF_KEYS] pairs into a dict, and prints timings.
    The interpreter's services ([random.randint], [time.time], [print]) are
    modelled by a small state-and-exception monad over a [world] that holds
    the entropy source, the clock and the text printed so far.

    Integers are unbounded and memory is not a limit: a list of any length
    can be built and any integer can be formatted.  Clock readings are
    rationals (every finite float is one); the subtraction of two floats is
    the exact difference passed through a rounding function. *)

From Stdlib Require Import ZArith QArith Lqa String Ascii List.
From stdpp Require Import gmap list fin_maps.

Import ListNotations.

(** ** Exceptions and results *)

Inductive exn : Set := ValueError | IndexError.

Inductive result (A : Type) : Type :=
  | Ok (a : A)
  | Raise (e : exn).

Arguments Ok {A} a.
Arguments Raise {A} e.

(** ** Standard output

    An f-string is a sequence of literal pieces and formatted fields; one
    [print] call contributes one such sequence followed by a newline. *)

Inductive fragment : Type :=
  | Text (s : string)       (* literal text of the f-string *)
  | Sci2 (n : Z)            (* {n:.2e} *)
  | Fixed4 (q : Q)          (* {q:.4f} *)
  | Plain (n : Z).          (* {n} *)

(** ** The world outside the script *)

Record world : Type := World {
  entropy : nat -> Z;       (* raw output of the generator, draw by draw *)
  drawn : nat;              (* number of draws made so far *)
  ticks : nat -> Q;         (* what the clock shows, reading by reading *)
  readings : nat;           (* number of clock readings made so far *)
  stdout : list (list fragment)
}.

Definition M (A : Type) : Type := world -> result A * world.

Definition ret {A} (a : A) : M A := fun w => (Ok a, w).

Definition bind {A B} (m : M A) (k : A -> M B) : M B :=
  fun w =>
    match m w with
    | (Ok a, w') => k a w'
    | (Raise e, w') => (Raise e, w')
    end.

Definition lift {A} (r : result A) : M A := fun w => (r, w).

Declare Scope py_scope.
Delimit Scope py_scope with py.
Notation "x <- m ;; k" := (bind m (fun x => k))
  (at level 100, m at next level, right associativity) : py_scope.
Notation "m ;;; k" := (bind m (fun _ => k))
  (at level 100, right associativity) : py_scope.

(** [time.time()] *)
Definition time_time : M Q :=
  fun w =>
    (Ok (ticks w (readings w)),
     World (entropy w) (drawn w) (ticks w) (S (readings w)) (stdout w)).

(** [print(f"...")] *)
Definition print (l : list fragment) : M unit :=
  fun w =>
    (Ok tt,
     World (entropy w) (drawn w) (ticks w) (readings w) (stdout w ++ [l])).

(** [random.randint(a, b)]: an integer of the closed interval [a, b];
    [ValueError] when the interval is empty. *)
Definition randint (a b : Z) : M Z :=
  fun w =>
    if (b <? a)%Z then (Raise ValueError, w)
    else
      (Ok (a + entropy w (drawn w) mod (b - a + 1))%Z,
       World (entropy w) (S (drawn w)) (ticks w) (readings w) (stdout w)).

(** [range(n)] *)
Definition py_range (n : Z) : list Z := map Z.of_nat (seq 0 (Z.to_nat n)).

(** [l[i]], negative indices counting from the end *)
Definition getitem (l : list Z) (i : Z) : result Z :=
  let j := if (i <? 0)%Z then (i + Z.of_nat (length l))%Z else i in
  if (j <? 0)%Z then Raise IndexError
  else match l !! Z.to_nat j with
       | Some x => Ok x
       | None => Raise IndexError
       end.

(** [[f(x) for x in l]] *)
Fixpoint comprehension {A B} (f : A -> M B) (l : list A) : M (list B) :=
  match l with
  | [] => ret []
  | x :: l' =>
      (y <- f x ;;
       ys <- comprehension f l' ;;
       ret (y :: ys))%py
  end.

(** [for x in l: body] over a state [S] of local variables *)
Fixpoint for_each {S} (body : Z -> S -> M S) (l : list Z) (s : S) : M S :=
  match l with
  | [] => ret s
  | x :: l' => (s' <- body x s ;; for_each body l' s')%py
  end.

(** ** The script *)

Definition NUMBER_OF_KEYS : Z := 10000000.   (* int(1e7) *)
Definition RANGE : Z := 1000.

(** The three containers the loop works on. *)
Record frame : Type := Frame {
  keys : list Z;
  values : list Z;
  dictionary : gmap Z Z
}.

(** Everything [main] has bound when it returns. *)
Record locals : Type := Locals {
  start : Q;
  vars : frame;
  start_time : Q;
  end_time : Q;
  time_spent : Q
}.

(** [dictionary[keys[i]] = values[i]] *)
Definition loop_body (i : Z) (fr : frame) : M frame :=
  (k <- lift (getitem (keys fr) i) ;;
   v <- lift (getitem (values fr) i) ;;
   ret (Frame (keys fr) (values fr) (<[k := v]> (dictionary fr))))%py.

Definition len (d : gmap Z Z) : Z := Z.of_nat (size d).

Section Script.

(** Subtraction of two floats: the exact difference, rounded. *)
Variable rnd : Q -> Q.
(** The two module constants, [NUMBER_OF_KEYS] and [RANGE]. *)
Variables N R : Z.

Definition fsub (x y : Q) : Q := rnd (x - y).

Definition gen_values : M (list Z) :=
  comprehension (fun _ => randint 1 (R - 1)) (py_range N).

Definition insert_all (fr : frame) : M frame :=
  for_each loop_body (py_range N) fr.

Definition main : M locals :=
  (print [Text "Attempting to batch insert "; Sci2 N;
          Text " keys into Python dictionary"] ;;;
   start <- time_time ;;
   keys <- ret (py_range N) ;;
   values <- gen_values ;;
   empty_dict <- ret (∅ : gmap Z Z) ;;
   start_time <- time_time ;;
   fr <- insert_all (Frame keys values empty_dict) ;;
   end_time <- time_time ;;
   time_spent <- ret (fsub end_time start_time) ;;
   print [Text "Operation took "; Fixed4 time_spent; Text " seconds"] ;;;
   print [Text "Dictionary size: "; Plain (len (dictionary fr))] ;;;
   now <- time_time ;;
   print [Text "total time taken: "; Fixed4 (fsub now start);
          Text " seconds"] ;;;
   ret (Locals start fr start_time end_time time_spent))%py.

End Script.

(** The script with the constants it ships with. *)
Definition program (rnd : Q -> Q) : M locals := main rnd NUMBER_OF_KEYS RANGE.

(** ** Rendering standard output as text *)

Definition newline : ascii := ascii_of_nat 10.

Fixpoint count_newlines (s : string) : nat :=
  match s with
  | EmptyString => 0
  | String c s' =>
      (if Ascii.eqb c newline then 1 else 0) + count_newlines s'
  end.

Section Render.

(** Python's number formatting, one function per format specifier. *)
Variable fmt_sci2 : Z -> string.
Variable fmt_fixed4 : Q -> string.
Variable fmt_plain : Z -> string.

Definition render_fragment (f : fragment) : string :=
  match f with
  | Text s => s
  | Sci2 n => fmt_sci2 n
  | Fixed4 q => fmt_fixed4 q
  | Plain n => fmt_plain n
  end.

Fixpoint render_line (l : list fragment) : string :=
  match l with
  | [] => String newline EmptyString
  | f :: l' => append (render_fragment f) (render_line l')
  end.

Fixpoint render (out : list (list fragment)) : string :=
  match out with
  | [] => EmptyString
  | l :: out' => append (render_line l) (render out')
  end.

End Render.

(** ** Sample worlds *)

Definition world0 (e : nat -> Z) (c : nat -> Q) : world := World e 0 c 0 [].

Definition sample_entropy (i : nat) : Z := (Z.of_nat i * 7919 + 998)%Z.
Definition sample_ticks (i : nat) : Q := inject_Z (Z.of_nat i).
Definition sample_world : world := world0 sample_entropy sample_ticks.


(** What the run described by [main] leaves behind, written out. *)

Definition draws (a b : Z) (w : world) (n : nat) : list Z :=
  map (fun i => (a + entropy w (drawn w + i) mod (b - a + 1))%Z) (seq 0 n).

Definition after_draws (w : world) (n : nat) : world :=
  World (entropy w) (drawn w + n) (ticks w) (readings w) (stdout w).

Definition put (d : gmap Z Z) (kv : Z * Z) : gmap Z Z := <[kv.1 := kv.2]> d.

Definition banner (N : Z) : list fragment :=
  [Text "Attempting to batch insert "; Sci2 N;
   Text " keys into Python dictionary"].

Definition report (N : Z) (spent : Q) (size : Z) (total : Q)
  : list (list fragment) :=
  [banner N;
   [Text "Operation took "; Fixed4 spent; Text " seconds"];
   [Text "Dictionary size: "; Plain size];
   [Text "total time taken: "; Fixed4 total; Text " seconds"]].

(** The run [main] performs from a world [w], when it returns. *)
Section Described.

Variable rnd : Q -> Q.
Variables N R : Z.
Variable w : world.

Definition run_values : list Z := draws 1 (R - 1) w (Z.to_nat N).

Definition run_frame : frame :=
  Frame (py_range N) run_values (list_to_map (zip (py_range N) run_values)).

Definition run_locals : locals :=
  Locals (ticks w (readings w)) run_frame
    (ticks w (1 + readings w)) (ticks w (2 + readings w))
    (fsub rnd (ticks w (2 + readings w)) (ticks w (1 + readings w))).

Definition run_world : world :=
  World (entropy w) (drawn w + Z.to_nat N) (ticks w) (4 + readings w)
    (stdout w ++
     report N (time_spent run_locals) (len (dictionary run_frame))
       (fsub rnd (ticks w (3 + readings w)) (ticks w (readings w)))).

End Described.

(** The world in which [main] starts drawing: the banner is out and the
    clock has been read once. *)
Definition at_generation (N : Z) (w : world) : world :=
  World (entropy w) (drawn w) (ticks w) (1 + readings w)
    (stdout w ++ [banner N]).

(** Formatters that print every number the same way; newline-free. *)
Definition flat_sci2 (_ : Z) : string := "1.00e+00".
Definition flat_fixed4 (_ : Q) : string := "0.0000".
Definition flat_plain (_ : Z) : string := "0".

Definition exact : Q -> Q := fun q => q.

(** A second world, whose generator always yields the smallest value. *)
Definition low_world : world := world0 (fun _ => 0%Z) sample_ticks.

(** A world whose generator always yields [u - 1], so that a draw from
    [1, b] with [1 <= u <= b] is [u]. *)
Definition world_drawing (u : Z) : world :=
  world0 (fun _ => (u - 1)%Z) sample_ticks.

(** The last two lines of the file: [main()] is called only when the file
    is run as a script, that is when [__name__] is ["__main__"]. *)
Definition module_body (rnd : Q -> Q) (name : string) : M unit :=
  if String.eqb name "__main__"
  then (_ <- main rnd NUMBER_OF_KEYS RANGE ;; ret tt)%py
  else ret tt.

(** * Properties *)

(** ** The monad *)

Lemma bind_ok {A B} (m : M A) (k : A -> M B) w a w' :
  m w = (Ok a, w') -> bind m k w = k a w'.
Proof. intros H. unfold bind. now rewrite H. Qed.

Lemma bind_raise {A B} (m : M A) (k : A -> M B) w e w' :
  m w = (Raise e, w') -> bind m k w = (Raise e, w').
Proof. intros H. unfold bind. now rewrite H. Qed.

Lemma bind_inv {A B} (m : M A) (k : A -> M B) w b w2 :
  bind m k w = (Ok b, w2) ->
  exists a w1, m w = (Ok a, w1) /\ k a w1 = (Ok b, w2).
Proof.
  unfold bind. destruct (m w) as [[a|e] w1]; intros H.
  - now exists a, w1.
  - discriminate.
Qed.

(** ** Ranges *)

Lemma length_py_range n : length (py_range n) = Z.to_nat n.
Proof. unfold py_range. now rewrite length_map, length_seq. Qed.

Lemma lookup_py_range n (i : nat) :
  (i < Z.to_nat n)%nat -> py_range n !! i = Some (Z.of_nat i).
Proof.
  intros Hi. unfold py_range.
  change (map Z.of_nat) with (fmap (M := list) Z.of_nat).
  rewrite list_lookup_fmap, lookup_seq_lt by done. reflexivity.
Qed.

Lemma NoDup_py_range n : NoDup (py_range n).
Proof.
  unfold py_range.
  change (map Z.of_nat) with (fmap (M := list) Z.of_nat).
  apply NoDup_fmap_2; [apply Nat2Z.inj' | apply NoDup_seq].
Qed.


Lemma py_range_nonpos n : (n <= 0)%Z -> py_range n = [].
Proof. intros H. unfold py_range. now replace (Z.to_nat n) with 0%nat by lia. Qed.

(** ** Drawing the values *)

Lemma after_draws_0 w : after_draws w 0 = w.
Proof. destruct w. unfold after_draws. simpl. f_equal. lia. Qed.

Lemma randint_ok a b w :
  (a <= b)%Z ->
  randint a b w = (Ok (a + entropy w (drawn w) mod (b - a + 1))%Z,
                   after_draws w 1).
Proof.
  intros H. unfold randint, after_draws.
  destruct (Z.ltb_spec b a); [lia|]. do 2 f_equal. lia.
Qed.

Lemma randint_raise a b w :
  (b < a)%Z -> randint a b w = (Raise ValueError, w).
Proof. intros H. unfold randint. destruct (Z.ltb_spec b a); [done | lia]. Qed.

Lemma randint_bounds a b w v w' :
  randint a b w = (Ok v, w') -> (a <= v <= b)%Z.
Proof.
  unfold randint. destruct (Z.ltb_spec b a); [discriminate|].
  intros [= <- _].
  pose proof (Z.mod_pos_bound (entropy w (drawn w)) (b - a + 1)). lia.
Qed.

Lemma comprehension_randint_ok {A} a b (l : list A) :
  (a <= b)%Z ->
  forall w,
    comprehension (fun _ => randint a b) l w
    = (Ok (draws a b w (length l)), after_draws w (length l)).
Proof.
  intros Hab. induction l as [|x l IH]; intros w.
  - simpl. unfold ret. now rewrite after_draws_0.
  - simpl. rewrite (bind_ok _ _ _ _ _ (randint_ok a b w Hab)).
    rewrite (bind_ok _ _ _ _ _ (IH _)). unfold ret. f_equal.
    + f_equal. unfold draws. simpl. f_equal.
      * do 3 f_equal. lia.
      * rewrite <- seq_shift, map_map. apply map_ext.
        intros i. do 3 f_equal. lia.
    + unfold after_draws. simpl. f_equal. lia.
Qed.

Lemma comprehension_randint_raise {A} a b (x : A) (l : list A) w :
  (b < a)%Z ->
  comprehension (fun _ => randint a b) (x :: l) w = (Raise ValueError, w).
Proof.
  intros H. simpl. now rewrite (bind_raise _ _ _ _ _ (randint_raise a b w H)).
Qed.

Lemma draws_bounds a b w n :
  (a <= b)%Z -> Forall (fun v => (a <= v <= b)%Z) (draws a b w n).
Proof.
  intros H. unfold draws. apply Forall_forall. intros v Hv.
  apply list_elem_of_In, in_map_iff in Hv as (i & <- & _).
  pose proof (Z.mod_pos_bound (entropy w (drawn w + i)) (b - a + 1)). lia.
Qed.

Lemma length_draws a b w n : length (draws a b w n) = n.
Proof. unfold draws. now rewrite length_map, length_seq. Qed.

(** ** The insertion loop *)

Lemma getitem_ok (l : list Z) (i : nat) x :
  l !! i = Some x -> getitem l (Z.of_nat i) = Ok x.
Proof.
  intros H. unfold getitem.
  assert (E : (Z.of_nat i <? 0)%Z = false) by (apply Z.ltb_ge; lia).
  cbv zeta. rewrite E, E, Nat2Z.id, H. reflexivity.
Qed.

Lemma loop_body_ok fr (i : nat) k v w :
  keys fr !! i = Some k -> values fr !! i = Some v ->
  loop_body (Z.of_nat i) fr w
  = (Ok (Frame (keys fr) (values fr) (<[k := v]> (dictionary fr))), w).
Proof.
  intros Hk Hv. unfold loop_body, bind, lift, ret.
  now rewrite (getitem_ok _ _ _ Hk), (getitem_ok _ _ _ Hv).
Qed.

(** One iteration touches only the dictionary. *)
Lemma loop_body_frame i fr w fr' w' :
  loop_body i fr w = (Ok fr', w') ->
  keys fr' = keys fr /\ values fr' = values fr /\ w' = w.
Proof.
  unfold loop_body, bind, lift, ret.
  destruct (getitem (keys fr) i); [|discriminate].
  destruct (getitem (values fr) i); [|discriminate].
  now intros [= <- <-].
Qed.

Lemma for_each_frame l : forall fr w fr' w',
  for_each loop_body l fr w = (Ok fr', w') ->
  keys fr' = keys fr /\ values fr' = values fr /\ w' = w.
Proof.
  induction l as [|i l IH]; intros fr w fr' w' H.
  - now injection H as <- <-.
  - simpl in H. apply bind_inv in H as (fr1 & w1 & H1 & H2).
    apply loop_body_frame in H1 as (Hk & Hv & ->).
    apply IH in H2 as (Hk' & Hv' & ->).
    now rewrite Hk', Hv'.
Qed.

(** The loop over the indices [s, s+n) performs the insertions of the
    corresponding slice of [zip keys values], in order. *)
Lemma for_each_slice ks vs : forall n s d w,
  (s + n <= length ks)%nat -> (s + n <= length vs)%nat ->
  for_each loop_body (map Z.of_nat (seq s n)) (Frame ks vs d) w
  = (Ok (Frame ks vs (foldl put d (take n (drop s (zip ks vs))))), w).
Proof.
  induction n as [|n IH]; intros s d w Hks Hvs.
  - reflexivity.
  - destruct (lookup_lt_is_Some_2 ks s) as [k Hk]; [lia|].
    destruct (lookup_lt_is_Some_2 vs s) as [v Hv]; [lia|].
    assert (Hz : zip ks vs !! s = Some (k, v)).
    { rewrite lookup_zip_with, Hk. simpl. now rewrite Hv. }
    simpl.
    rewrite (bind_ok _ _ _ _ _ (loop_body_ok (Frame ks vs d) s k v w Hk Hv)).
    simpl. rewrite IH by lia.
    now rewrite (drop_S _ _ _ Hz).
Qed.

Lemma foldl_put_union (kvs : list (Z * Z)) : forall d : gmap Z Z,
  NoDup kvs.*1 -> foldl put d kvs = list_to_map kvs ∪ d.
Proof.
  induction kvs as [|[k v] kvs IH]; intros d Hnd.
  - simpl. now rewrite (left_id_L ∅ (∪)).
  - apply NoDup_cons in Hnd as [Hk Hnd]. simpl.
    rewrite IH by done. unfold put. simpl.
    rewrite <- insert_union_r by now apply not_elem_of_list_to_map_1.
    now rewrite insert_union_l.
Qed.

Lemma insert_all_ok N vs w :
  length vs = Z.to_nat N ->
  insert_all N (Frame (py_range N) vs ∅) w
  = (Ok (Frame (py_range N) vs (list_to_map (zip (py_range N) vs))), w).
Proof.
  intros Hlen. unfold insert_all. unfold py_range at 1.
  rewrite for_each_slice by (rewrite ?length_py_range; lia).
  rewrite drop_0, take_ge.
  2: { rewrite length_zip_with, length_py_range. lia. }
  rewrite foldl_put_union.
  2: { rewrite fst_zip; [apply NoDup_py_range|].
       rewrite length_py_range. lia. }
  now rewrite (right_id_L ∅ (∪)).
Qed.

(** ** The whole run *)

Section Run.

Variable rnd : Q -> Q.
Variables N R : Z.
Variable w : world.

Lemma gen_values_ok w0 :
  (2 <= R \/ N <= 0)%Z ->
  gen_values N R w0
  = (Ok (draws 1 (R - 1) w0 (Z.to_nat N)), after_draws w0 (Z.to_nat N)).
Proof.
  intros H. unfold gen_values.
  destruct (Z_le_dec 2 R) as [HR|HR].
  - rewrite comprehension_randint_ok by lia. now rewrite length_py_range.
  - rewrite py_range_nonpos by lia. replace (Z.to_nat N) with 0%nat by lia.
    simpl. unfold ret. now rewrite after_draws_0.
Qed.

Lemma gen_values_raise w0 :
  (R < 2)%Z -> (1 <= N)%Z -> gen_values N R w0 = (Raise ValueError, w0).
Proof.
  intros HR HN. unfold gen_values, py_range.
  destruct (Z.to_nat N) as [|n] eqn:E; [lia|].
  cbn [seq map]. apply comprehension_randint_raise. lia.
Qed.

Lemma main_completes :
  (2 <= R \/ N <= 0)%Z -> main rnd N R w = (Ok (run_locals rnd N R w), run_world rnd N R w).
Proof.
  intros H. unfold main.
  unfold bind at 1. simpl.
  unfold bind at 1. simpl.
  unfold bind at 1. simpl.
  erewrite bind_ok by (apply gen_values_ok, H).
  unfold bind at 1. simpl.
  unfold bind at 1. simpl.
  erewrite bind_ok.
  2: { apply insert_all_ok. apply length_draws. }
  unfold bind, ret. simpl.
  unfold run_locals, run_world, run_frame, run_values, report, banner,
    draws. simpl.
  rewrite <- !app_assoc. reflexivity.
Qed.

Lemma main_raises :
  (R < 2)%Z -> (1 <= N)%Z ->
  main rnd N R w
  = (Raise ValueError,
     at_generation N w).
Proof.
  intros HR HN. unfold main.
  unfold bind at 1. simpl.
  unfold bind at 1. simpl.
  unfold bind at 1. simpl.
  erewrite bind_raise by (apply gen_values_raise; assumption). reflexivity.
Qed.

(** Every run that returns is the run described above. *)
Lemma main_inv l w' :
  main rnd N R w = (Ok l, w') ->
  (2 <= R \/ N <= 0)%Z /\
  l = run_locals rnd N R w /\ w' = run_world rnd N R w.
Proof.
  intros H.
  destruct (Z_le_dec 2 R) as [HR|HR]; [|destruct (Z_le_dec N 0) as [HN|HN]].
  - rewrite main_completes in H by lia. injection H as <- <-. auto.
  - rewrite main_completes in H by lia. injection H as <- <-. auto.
  - rewrite main_raises in H by lia. discriminate.
Qed.

End Run.

(** ** Facts about the described run *)

Lemma run_values_length N R w : length (run_values N R w) = Z.to_nat N.
Proof. apply length_draws. Qed.

Lemma run_keys_NoDup N R w : NoDup (zip (py_range N) (run_values N R w)).*1.
Proof.
  rewrite fst_zip; [apply NoDup_py_range|].
  rewrite length_py_range, run_values_length. lia.
Qed.

Lemma run_dictionary_size N R w :
  size (dictionary (run_frame N R w)) = Z.to_nat N.
Proof.
  simpl. rewrite map_size_list_to_map by apply run_keys_NoDup.
  rewrite length_zip_with, length_py_range, run_values_length. lia.
Qed.

Lemma run_values_bounds N R w :
  (2 <= R \/ N <= 0)%Z ->
  Forall (fun v => (1 <= v <= R - 1)%Z) (run_values N R w).
Proof.
  intros H. unfold run_values.
  destruct (Z_le_dec 2 R); [apply draws_bounds; lia|].
  replace (Z.to_nat N) with 0%nat by lia. constructor.
Qed.

Lemma run_dictionary_lookup N R w k v :
  dictionary (run_frame N R w) !! k = Some v ->
  exists i : nat, py_range N !! i = Some k /\ run_values N R w !! i = Some v.
Proof.
  simpl. intros H. apply elem_of_list_to_map_2, list_elem_of_lookup in H.
  destruct H as [i Hi]. exists i.
  rewrite lookup_zip_with in Hi.
  destruct (py_range N !! i) as [k'|]; [|discriminate]. simpl in Hi.
  destruct (run_values N R w !! i) as [v'|]; [|discriminate]. simpl in Hi.
  now injection Hi as -> ->.
Qed.

(** ** Sample runs *)

Example getitem_from_the_end : getitem [10; 20; 30]%Z (-1) = Ok 30%Z.
Proof. reflexivity. Qed.

Example getitem_out_of_range : getitem [10; 20; 30]%Z 3 = Raise IndexError.
Proof. reflexivity. Qed.

Example sample_run_values :
  values (vars (run_locals exact 3 1000 sample_world)) = [999; 926; 853]%Z.
Proof. vm_compute. reflexivity. Qed.

Example sample_run_stdout :
  stdout (snd (main exact 3 1000 sample_world))
  = [[Text "Attempting to batch insert "; Sci2 3;
      Text " keys into Python dictionary"];
     [Text "Operation took "; Fixed4 1; Text " seconds"];
     [Text "Dictionary size: "; Plain 3];
     [Text "total time taken: "; Fixed4 3; Text " seconds"]].
Proof. vm_compute. reflexivity. Qed.

Example sample_run_newlines :
  count_newlines
    (render flat_sci2 flat_fixed4 flat_plain
       (stdout (snd (main exact 3 1000 sample_world)))) = 4%nat.
Proof. vm_compute. reflexivity. Qed.

Example range_one_raises :
  fst (main exact 3 1 sample_world) = Raise ValueError.
Proof. vm_compute. reflexivity. Qed.

Example negative_count_is_empty :
  fst (main exact (-2) 0 sample_world)
  = Ok (Locals 0 (Frame [] [] ∅) 1 2 1).
Proof. vm_compute. reflexivity. Qed.

(** ** Statements of the specification *)

(** C1: after the insertion loop the dictionary holds exactly the supplied
    pairs: it maps [keys[i]] to [values[i]] for every index [i] below [N],
    has no key outside [keys], and its entries are, up to order, the pairs
    of [zip keys values]. *)
Theorem C1_dictionary_is_the_supplied_pairs rnd N R w l w' :
  main rnd N R w = (Ok l, w') ->
  length (keys (vars l)) = Z.to_nat N /\
  length (values (vars l)) = Z.to_nat N /\
  (forall (i : nat) k v,
     keys (vars l) !! i = Some k -> values (vars l) !! i = Some v ->
     dictionary (vars l) !! k = Some v) /\
  (forall k, k ∉ keys (vars l) -> dictionary (vars l) !! k = None) /\
  map_to_list (dictionary (vars l)) ≡ₚ zip (keys (vars l)) (values (vars l)).
Proof.
  intros H. apply main_inv in H as (_ & -> & _). simpl.
  pose proof (run_keys_NoDup N R w) as Hnd.
  repeat split.
  - apply length_py_range.
  - apply run_values_length.
  - intros i k v Hk Hv. apply elem_of_list_to_map_1; [done|].
    apply list_elem_of_lookup. exists i.
    rewrite lookup_zip_with, Hk. simpl. now rewrite Hv.
  - intros k Hk. apply not_elem_of_list_to_map_1.
    rewrite fst_zip; [done|].
    rewrite length_py_range, run_values_length. lia.
  - now apply map_to_list_to_map.
Qed.

Lemma C1_witness :
  main exact 3 1000 sample_world
  = (Ok (run_locals exact 3 1000 sample_world),
     run_world exact 3 1000 sample_world) /\
  dictionary (vars (run_locals exact 3 1000 sample_world)) !! 2%Z
  = Some 853%Z.
Proof.
  assert (H : main exact 3 1000 sample_world
              = (Ok (run_locals exact 3 1000 sample_world),
                 run_world exact 3 1000 sample_world))
    by (vm_compute; reflexivity).
  split; [exact H|].
  destruct (C1_dictionary_is_the_supplied_pairs _ _ _ _ _ _ H)
    as (_ & _ & Hmaps & _).
  apply (Hmaps 2%nat); vm_compute; reflexivity.
Defined.

(** C2, as stated, fails: with [RANGE = 1000] a draw can be [999], which
    is then stored, and [999 < RANGE - 1] does not hold. *)
Lemma C2_counterexample :
  ~ (forall rnd N R w l w' k v,
       main rnd N R w = (Ok l, w') ->
       dictionary (vars l) !! k = Some v ->
       (1 <= v /\ v < R - 1)%Z).
Proof.
  intros H.
  assert (Hrun : main exact 3 1000 sample_world
                 = (Ok (run_locals exact 3 1000 sample_world),
                    run_world exact 3 1000 sample_world))
    by (vm_compute; reflexivity).
  assert (Hget : dictionary (vars (run_locals exact 3 1000 sample_world))
                 !! 0%Z = Some 999%Z)
    by (vm_compute; reflexivity).
  destruct (H _ _ _ _ _ _ _ _ Hrun Hget) as [_ Hlt]. lia.
Qed.

(** C2, amended: every value stored in the dictionary, and every generated
    value, lies in the closed interval [1, R-1]. *)
Theorem C2_stored_values_in_closed_interval rnd N R w l w' :
  main rnd N R w = (Ok l, w') ->
  (forall k v, dictionary (vars l) !! k = Some v -> (1 <= v <= R - 1)%Z) /\
  Forall (fun v => (1 <= v <= R - 1)%Z) (values (vars l)).
Proof.
  intros H. apply main_inv in H as (HR & -> & _).
  pose proof (run_values_bounds N R w HR) as Hall.
  split; [|exact Hall].
  intros k v Hkv. apply run_dictionary_lookup in Hkv as (i & _ & Hv).
  rewrite Forall_forall in Hall. apply Hall.
  apply list_elem_of_lookup. now exists i.
Qed.

Lemma C2_witness :
  main exact 3 1000 sample_world
  = (Ok (run_locals exact 3 1000 sample_world),
     run_world exact 3 1000 sample_world) /\
  (forall k v,
     dictionary (vars (run_locals exact 3 1000 sample_world)) !! k = Some v ->
     (1 <= v <= 1000 - 1)%Z).
Proof.
  assert (H : main exact 3 1000 sample_world
              = (Ok (run_locals exact 3 1000 sample_world),
                 run_world exact 3 1000 sample_world))
    by (vm_compute; reflexivity).
  split; [exact H|].
  exact (proj1 (C2_stored_values_in_closed_interval _ _ _ _ _ _ H)).
Defined.

(** C3: for every [N >= 0] and [R >= 2] the run returns, the keys are
    [0 .. N-1], pairwise distinct, and the dictionary has [N] entries; the
    size line of the output shows [N]. *)
Theorem C3_dictionary_size_is_N rnd N R w :
  (0 <= N)%Z -> (2 <= R)%Z ->
  exists l w',
    main rnd N R w = (Ok l, w') /\
    keys (vars l) = py_range N /\
    NoDup (keys (vars l)) /\
    len (dictionary (vars l)) = N /\
    [Text "Dictionary size: "; Plain N] ∈ stdout w'.
Proof.
  intros HN HR. exists (run_locals rnd N R w), (run_world rnd N R w).
  assert (Hlen : len (dictionary (run_frame N R w)) = N).
  { unfold len. rewrite run_dictionary_size. lia. }
  split; [apply main_completes; lia|].
  split; [reflexivity|].
  split; [apply NoDup_py_range|].
  split; [exact Hlen|].
  unfold run_world, report. cbn [stdout]. rewrite Hlen.
  apply list_elem_of_In, in_or_app. right. simpl. auto.
Qed.

Lemma C3_witness :
  exists l w',
    main exact 3 1000 sample_world = (Ok l, w') /\
    keys (vars l) = py_range 3 /\
    NoDup (keys (vars l)) /\
    len (dictionary (vars l)) = 3%Z /\
    [Text "Dictionary size: "; Plain 3] ∈ stdout w'.
Proof.
  apply (C3_dictionary_size_is_N exact 3 1000 sample_world); lia.
Defined.

(** ** Lines of output *)

Lemma count_newlines_append s t :
  count_newlines (append s t) = (count_newlines s + count_newlines t)%nat.
Proof. induction s as [|c s IH]; simpl; [reflexivity | rewrite IH; lia]. Qed.

Lemma append_assoc s t u : append (append s t) u = append s (append t u).
Proof.
  induction s as [|c s IH]; [reflexivity|].
  change (String c (append (append s t) u) = String c (append s (append t u))).
  now rewrite IH.
Qed.

Section Lines.

Variable fmt_sci2 : Z -> string.
Variable fmt_fixed4 : Q -> string.
Variable fmt_plain : Z -> string.

Hypothesis sci2_one_line : forall n, count_newlines (fmt_sci2 n) = 0%nat.
Hypothesis fixed4_one_line : forall q, count_newlines (fmt_fixed4 q) = 0%nat.
Hypothesis plain_one_line : forall n, count_newlines (fmt_plain n) = 0%nat.

Lemma render_app out1 out2 :
  render fmt_sci2 fmt_fixed4 fmt_plain (out1 ++ out2)
  = append (render fmt_sci2 fmt_fixed4 fmt_plain out1)
      (render fmt_sci2 fmt_fixed4 fmt_plain out2).
Proof.
  induction out1 as [|l out1 IH]; simpl; [reflexivity|].
  now rewrite IH, append_assoc.
Qed.

Lemma report_newlines N spent size total :
  count_newlines
    (render fmt_sci2 fmt_fixed4 fmt_plain (report N spent size total))
  = 4%nat.
Proof.
  unfold report, banner. simpl.
  rewrite !count_newlines_append. simpl.
  rewrite sci2_one_line, !fixed4_one_line, plain_one_line. reflexivity.
Qed.

End Lines.

Lemma run_world_lines rnd N R w :
  length (stdout (run_world rnd N R w)) = (length (stdout w) + 4)%nat.
Proof. unfold run_world. cbn [stdout]. now rewrite length_app. Qed.

(** C4, as stated, fails: a run that starts with nothing printed ends with
    four lines printed, not three. *)
Lemma C4_counterexample :
  ~ (forall rnd N R w l w',
       stdout w = [] ->
       main rnd N R w = (Ok l, w') ->
       length (stdout w') = 3%nat).
Proof.
  intros H.
  assert (Hrun : main exact 3 1000 sample_world
                 = (Ok (run_locals exact 3 1000 sample_world),
                    run_world exact 3 1000 sample_world))
    by (vm_compute; reflexivity).
  specialize (H exact 3%Z 1000%Z sample_world _ _ eq_refl Hrun).
  rewrite run_world_lines in H. discriminate H.
Qed.

(** C4, amended: a run that returns appends exactly four lines to standard
    output: the banner with the intended key count, the insertion time,
    the dictionary size, and the total time.  Rendered as text with
    formatters that emit no newline, the output grows by four newlines. *)
Theorem C4_output_is_four_lines
    (fmt_sci2 : Z -> string) (fmt_fixed4 : Q -> string) (fmt_plain : Z -> string)
    rnd N R w l w' :
  (forall n, count_newlines (fmt_sci2 n) = 0%nat) ->
  (forall q, count_newlines (fmt_fixed4 q) = 0%nat) ->
  (forall n, count_newlines (fmt_plain n) = 0%nat) ->
  main rnd N R w = (Ok l, w') ->
  exists now,
    stdout w'
    = stdout w ++
      [[Text "Attempting to batch insert "; Sci2 N;
        Text " keys into Python dictionary"];
       [Text "Operation took "; Fixed4 (time_spent l); Text " seconds"];
       [Text "Dictionary size: "; Plain (len (dictionary (vars l)))];
       [Text "total time taken: "; Fixed4 (fsub rnd now (start l));
        Text " seconds"]] /\
    length (stdout w') = (length (stdout w) + 4)%nat /\
    count_newlines (render fmt_sci2 fmt_fixed4 fmt_plain (stdout w'))
    = (count_newlines (render fmt_sci2 fmt_fixed4 fmt_plain (stdout w)) + 4)%nat.
Proof.
  intros Hs Hf Hp H. apply main_inv in H as (_ & -> & ->).
  exists (ticks w (3 + readings w)%nat).
  split; [reflexivity|]. split.
  - apply run_world_lines.
  - unfold run_world. cbn [stdout].
    rewrite render_app, count_newlines_append.
    now rewrite report_newlines.
Qed.

Lemma C4_witness :
  exists now,
    stdout (run_world exact 3 1000 sample_world)
    = stdout sample_world ++
      [[Text "Attempting to batch insert "; Sci2 3;
        Text " keys into Python dictionary"];
       [Text "Operation took ";
        Fixed4 (time_spent (run_locals exact 3 1000 sample_world));
        Text " seconds"];
       [Text "Dictionary size: ";
        Plain (len (dictionary (vars (run_locals exact 3 1000 sample_world))))];
       [Text "total time taken: ";
        Fixed4 (fsub exact now (start (run_locals exact 3 1000 sample_world)));
        Text " seconds"]] /\
    length (stdout (run_world exact 3 1000 sample_world))
    = (length (stdout sample_world) + 4)%nat /\
    count_newlines (render flat_sci2 flat_fixed4 flat_plain
                      (stdout (run_world exact 3 1000 sample_world)))
    = (count_newlines (render flat_sci2 flat_fixed4 flat_plain
                         (stdout sample_world)) + 4)%nat.
Proof.
  apply (C4_output_is_four_lines flat_sci2 flat_fixed4 flat_plain
           exact 3 1000 sample_world).
  - intros n. reflexivity.
  - intros q. reflexivity.
  - intros n. reflexivity.
  - vm_compute. reflexivity.
Defined.

(** C5: with a clock that never goes back and a float subtraction that
    rounds monotonically and keeps zero, the reported insertion time is
    non-negative and at most the reported total time. *)
Theorem C5_insertion_time_within_total rnd N R w l w' :
  (forall x y, (x <= y)%Q -> (rnd x <= rnd y)%Q) ->
  (rnd 0 == 0)%Q ->
  (forall i j, (i <= j)%nat -> (ticks w i <= ticks w j)%Q) ->
  main rnd N R w = (Ok l, w') ->
  exists now,
    time_spent l = fsub rnd (end_time l) (start_time l) /\
    [Text "Operation took "; Fixed4 (time_spent l); Text " seconds"]
      ∈ stdout w' /\
    [Text "total time taken: "; Fixed4 (fsub rnd now (start l));
     Text " seconds"] ∈ stdout w' /\
    (0 <= time_spent l)%Q /\
    (time_spent l <= fsub rnd now (start l))%Q.
Proof.
  intros Hmono Hzero Hclock H. apply main_inv in H as (_ & -> & ->).
  exists (ticks w (3 + readings w)%nat).
  pose proof (Hclock (readings w) (1 + readings w)%nat ltac:(lia)) as H01.
  pose proof (Hclock (1 + readings w)%nat (2 + readings w)%nat ltac:(lia))
    as H12.
  pose proof (Hclock (2 + readings w)%nat (3 + readings w)%nat ltac:(lia))
    as H23.
  split; [reflexivity|].
  split.
  { unfold run_world, report. cbn [stdout].
    apply list_elem_of_In, in_or_app. right. simpl. auto. }
  split.
  { unfold run_world, report. cbn [stdout].
    apply list_elem_of_In, in_or_app. right. simpl. auto. }
  cbn [time_spent start run_locals]. unfold fsub. split.
  - apply Qle_trans with (rnd 0%Q).
    + apply Qle_lteq. right. symmetry. exact Hzero.
    + apply Hmono. lra.
  - apply Hmono. lra.
Qed.

Lemma C5_witness :
  exists now,
    time_spent (run_locals exact 3 1000 sample_world)
    = fsub exact (end_time (run_locals exact 3 1000 sample_world))
        (start_time (run_locals exact 3 1000 sample_world)) /\
    [Text "Operation took ";
     Fixed4 (time_spent (run_locals exact 3 1000 sample_world));
     Text " seconds"] ∈ stdout (run_world exact 3 1000 sample_world) /\
    [Text "total time taken: ";
     Fixed4 (fsub exact now (start (run_locals exact 3 1000 sample_world)));
     Text " seconds"] ∈ stdout (run_world exact 3 1000 sample_world) /\
    (0 <= time_spent (run_locals exact 3 1000 sample_world))%Q /\
    (time_spent (run_locals exact 3 1000 sample_world)
     <= fsub exact now (start (run_locals exact 3 1000 sample_world)))%Q.
Proof.
  apply (C5_insertion_time_within_total exact 3 1000 sample_world).
  - intros x y Hxy. exact Hxy.
  - reflexivity.
  - intros i j Hij. unfold Qle. simpl. lia.
  - vm_compute. reflexivity.
Defined.

(** C6: with [N = 0], whatever the range, the run returns; keys, values
    and dictionary are empty, no value is drawn and the loop body never
    runs. *)
Theorem C6_no_keys rnd R w :
  exists l w',
    main rnd 0 R w = (Ok l, w') /\
    keys (vars l) = [] /\
    values (vars l) = [] /\
    dictionary (vars l) = ∅ /\
    len (dictionary (vars l)) = 0%Z /\
    drawn w' = drawn w /\
    gen_values 0 R w = (Ok [], w) /\
    (forall fr, insert_all 0 fr w = (Ok fr, w)).
Proof.
  exists (run_locals rnd 0 R w), (run_world rnd 0 R w).
  split; [apply main_completes; lia|].
  repeat split; try reflexivity.
  cbn [drawn run_world]. simpl. lia.
Qed.

(** C7: two runs with the same [N] end with dictionaries of the same
    size, whatever values were drawn; that size is [N] (zero for a
    negative [N]). *)
Theorem C7_size_independent_of_values
    rnd1 rnd2 N R (w1 w2 : world) l1 l2 w1' w2' :
  main rnd1 N R w1 = (Ok l1, w1') ->
  main rnd2 N R w2 = (Ok l2, w2') ->
  size (dictionary (vars l1)) = size (dictionary (vars l2)) /\
  len (dictionary (vars l1)) = len (dictionary (vars l2)) /\
  size (dictionary (vars l1)) = Z.to_nat N.
Proof.
  intros H1 H2.
  apply main_inv in H1 as (_ & -> & _). apply main_inv in H2 as (_ & -> & _).
  cbn [vars run_locals]. unfold len. rewrite !run_dictionary_size. auto.
Qed.

Lemma C7_witness :
  values (vars (run_locals exact 3 1000 sample_world))
  <> values (vars (run_locals exact 3 1000 low_world)) /\
  size (dictionary (vars (run_locals exact 3 1000 sample_world)))
  = size (dictionary (vars (run_locals exact 3 1000 low_world))).
Proof.
  split; [vm_compute; discriminate|].
  refine (proj1 (C7_size_independent_of_values exact exact 3 1000
                   sample_world low_world
                   (run_locals exact 3 1000 sample_world)
                   (run_locals exact 3 1000 low_world)
                   (run_world exact 3 1000 sample_world)
                   (run_world exact 3 1000 low_world) _ _));
    vm_compute; reflexivity.
Defined.

(** C8: the loop reads [keys] and [values] and writes neither.  After the
    run, [keys] is still [0, 1, ..., N-1] and [values] is still the list
    the generator produced; in general the loop returns the frame it was
    given with only the dictionary changed. *)
Theorem C8_keys_and_values_unchanged rnd N R w l w' :
  main rnd N R w = (Ok l, w') ->
  keys (vars l) = py_range N /\
  (forall i : nat,
     (i < Z.to_nat N)%nat -> keys (vars l) !! i = Some (Z.of_nat i)) /\
  fst (gen_values N R (at_generation N w)) = Ok (values (vars l)) /\
  (forall fr w0 fr' w0',
     insert_all N fr w0 = (Ok fr', w0') ->
     keys fr' = keys fr /\ values fr' = values fr).
Proof.
  intros H. apply main_inv in H as (HR & -> & _).
  split; [reflexivity|].
  split; [intros i Hi; now apply lookup_py_range|].
  split; [now rewrite gen_values_ok|].
  intros fr w0 fr' w0' Hloop.
  apply for_each_frame in Hloop as (Hk & Hv & _). auto.
Qed.

Lemma C8_witness :
  keys (vars (run_locals exact 3 1000 sample_world)) = [0; 1; 2]%Z /\
  fst (gen_values 3 1000 (at_generation 3 sample_world))
  = Ok (values (vars (run_locals exact 3 1000 sample_world))).
Proof.
  assert (H : main exact 3 1000 sample_world
              = (Ok (run_locals exact 3 1000 sample_world),
                 run_world exact 3 1000 sample_world))
    by (vm_compute; reflexivity).
  destruct (C8_keys_and_values_unchanged _ _ _ _ _ _ H)
    as (Hk & _ & Hv & _).
  split; [rewrite Hk; reflexivity | exact Hv].
Defined.

(** C9: for [R >= 2] the generator's range is the closed interval
    [1, R-1]: every draw lies in it, every integer of it is some draw, and
    in particular some generated value equals [R-1]. *)
Theorem C9_value_range_is_closed R :
  (2 <= R)%Z ->
  (forall w v w', randint 1 (R - 1) w = (Ok v, w') -> (1 <= v <= R - 1)%Z) /\
  (forall N w vs w',
     gen_values N R w = (Ok vs, w') ->
     Forall (fun v => (1 <= v <= R - 1)%Z) vs) /\
  (forall u, (1 <= u <= R - 1)%Z ->
     randint 1 (R - 1) (world_drawing u)
     = (Ok u, after_draws (world_drawing u) 1)) /\
  (exists w vs w', gen_values 1 R w = (Ok vs, w') /\ (R - 1)%Z ∈ vs).
Proof.
  intros HR.
  assert (Hdraw : forall u, (1 <= u <= R - 1)%Z ->
            randint 1 (R - 1) (world_drawing u)
            = (Ok u, after_draws (world_drawing u) 1)).
  { intros u Hu. rewrite randint_ok by lia. do 2 f_equal.
    cbn [entropy world_drawing world0].
    rewrite Z.mod_small by lia. lia. }
  split; [intros w v w'; apply randint_bounds|].
  split.
  { intros N w vs w' H. rewrite gen_values_ok in H by lia.
    injection H as <- _. apply draws_bounds. lia. }
  split; [exact Hdraw|].
  exists (world_drawing (R - 1)), [(R - 1)%Z],
    (after_draws (world_drawing (R - 1)) 1).
  split; [|apply list_elem_of_here].
  unfold gen_values. change (py_range 1) with [0%Z]. cbn [comprehension].
  erewrite bind_ok by (apply Hdraw; lia). reflexivity.
Qed.

Lemma C9_witness :
  randint 1 (1000 - 1) (world_drawing 999)
  = (Ok 999%Z, after_draws (world_drawing 999) 1).
Proof.
  apply (C9_value_range_is_closed 1000); lia.
Defined.

(** C10: with [R < 2] and [N >= 1] the first draw raises [ValueError]:
    the run stops with only the banner printed and the clock read once,
    before any dictionary exists.  Hence a run returns only if [R >= 2]
    or there is nothing to draw, that is [N = 0] for a key count [N]. *)
Theorem C10_empty_interval_raises rnd N R w :
  ((R < 2)%Z -> (1 <= N)%Z ->
   gen_values N R (at_generation N w)
   = (Raise ValueError, at_generation N w) /\
   main rnd N R w = (Raise ValueError, at_generation N w)) /\
  (forall l w', main rnd N R w = (Ok l, w') -> (2 <= R \/ N <= 0)%Z) /\
  (forall l w',
     (0 <= N)%Z -> main rnd N R w = (Ok l, w') -> (2 <= R \/ N = 0)%Z) /\
  ((2 <= R \/ N <= 0)%Z -> exists l w', main rnd N R w = (Ok l, w')).
Proof.
  split; [|split; [|split]].
  - intros HR HN. split.
    + now apply gen_values_raise.
    + now apply main_raises.
  - intros l w' H. now apply main_inv in H as (HR & _).
  - intros l w' HN H. apply main_inv in H as (HR & _). lia.
  - intros H. eexists _, _. now apply main_completes.
Qed.

Lemma C10_witness :
  main exact 3 1 sample_world
  = (Raise ValueError, at_generation 3 sample_world).
Proof.
  apply (proj1 (C10_empty_interval_raises exact 3 1 sample_world)); lia.
Defined.

(** The script with its own constants returns and stores ten million
    entries. *)
Lemma program_completes rnd w :
  program rnd w
  = (Ok (run_locals rnd NUMBER_OF_KEYS RANGE w),
     run_world rnd NUMBER_OF_KEYS RANGE w) /\
  len (dictionary (run_frame NUMBER_OF_KEYS RANGE w)) = 10000000%Z.
Proof.
  split.
  - unfold program. apply main_completes. left. unfold RANGE. lia.
  - unfold len. rewrite run_dictionary_size.
    rewrite Z2Nat.id by (unfold NUMBER_OF_KEYS; lia). reflexivity.
Qed.

(** ** More on the insertion loop

    The loop of [main], run on any three containers. *)

Lemma getitem_past_end (l : list Z) (i : nat) :
  (length l <= i)%nat -> getitem l (Z.of_nat i) = Raise IndexError.
Proof.
  intros H. unfold getitem.
  assert (E : (Z.of_nat i <? 0)%Z = false) by (apply Z.ltb_ge; lia).
  cbv zeta. rewrite E, E, Nat2Z.id.
  now rewrite (lookup_ge_None_2 l i H).
Qed.

Lemma loop_body_past_end fr (i : nat) w :
  (length (keys fr) <= i \/ length (values fr) <= i)%nat ->
  loop_body (Z.of_nat i) fr w = (Raise IndexError, w).
Proof.
  intros H. unfold loop_body, bind, lift, ret.
  destruct (Nat.le_gt_cases (length (keys fr)) i) as [Hk|Hk].
  - now rewrite (getitem_past_end _ _ Hk).
  - destruct (lookup_lt_is_Some_2 (keys fr) i Hk) as [k Ek].
    rewrite (getitem_ok _ _ _ Ek).
    destruct H as [H|H]; [lia|]. now rewrite (getitem_past_end _ _ H).
Qed.

Lemma for_each_short ks vs : forall n s d w,
  (s <= length ks)%nat -> (s <= length vs)%nat ->
  (length ks < s + n \/ length vs < s + n)%nat ->
  for_each loop_body (map Z.of_nat (seq s n)) (Frame ks vs d) w
  = (Raise IndexError, w).
Proof.
  induction n as [|n IH]; intros s d w Hks Hvs Hshort; [lia|].
  cbn [seq map for_each].
  destruct (Nat.le_gt_cases (length ks) s) as [Hk|Hk].
  { erewrite bind_raise; [reflexivity|].
    apply loop_body_past_end. cbn [keys values]. lia. }
  destruct (Nat.le_gt_cases (length vs) s) as [Hv|Hv].
  { erewrite bind_raise; [reflexivity|].
    apply loop_body_past_end. cbn [keys values]. lia. }
  destruct (lookup_lt_is_Some_2 ks s Hk) as [k Ek].
  destruct (lookup_lt_is_Some_2 vs s Hv) as [v Ev].
  rewrite (bind_ok _ _ _ _ _ (loop_body_ok (Frame ks vs d) s k v w Ek Ev)).
  cbn [keys values dictionary]. apply IH; lia.
Qed.

Lemma insert_all_long fr N w :
  (Z.to_nat N <= length (keys fr))%nat ->
  (Z.to_nat N <= length (values fr))%nat ->
  insert_all N fr w
  = (Ok (Frame (keys fr) (values fr)
           (foldl put (dictionary fr)
              (take (Z.to_nat N) (zip (keys fr) (values fr))))), w).
Proof.
  intros Hk Hv. destruct fr as [ks vs d]. cbn [keys values dictionary] in *.
  unfold insert_all, py_range.
  rewrite for_each_slice by lia. now rewrite drop_0.
Qed.

Lemma insert_all_short fr N w :
  (length (keys fr) < Z.to_nat N \/ length (values fr) < Z.to_nat N)%nat ->
  insert_all N fr w = (Raise IndexError, w).
Proof.
  intros H. destruct fr as [ks vs d]. cbn [keys values] in H.
  unfold insert_all, py_range. apply for_each_short; lia.
Qed.

Lemma insert_all_inv fr N w fr' w' :
  insert_all N fr w = (Ok fr', w') ->
  (Z.to_nat N <= length (keys fr))%nat /\
  (Z.to_nat N <= length (values fr))%nat /\
  fr' = Frame (keys fr) (values fr)
          (foldl put (dictionary fr)
             (take (Z.to_nat N) (zip (keys fr) (values fr)))) /\
  w' = w.
Proof.
  intros H.
  destruct (Nat.le_gt_cases (Z.to_nat N) (length (keys fr))) as [Hk|Hk];
    [destruct (Nat.le_gt_cases (Z.to_nat N) (length (values fr))) as [Hv|Hv]|].
  - rewrite insert_all_long in H by done. now injection H as <- <-.
  - rewrite insert_all_short in H by lia. discriminate H.
  - rewrite insert_all_short in H by lia. discriminate H.
Qed.

Lemma foldl_put_other (kvs : list (Z * Z)) : forall (d : gmap Z Z) k,
  k ∉ kvs.*1 -> foldl put d kvs !! k = d !! k.
Proof.
  induction kvs as [|[k' v'] kvs IH]; intros d k Hk; [reflexivity|].
  apply not_elem_of_cons in Hk as [Hne Hk]. simpl.
  rewrite IH by done. unfold put. simpl. now apply lookup_insert_ne.
Qed.

Lemma foldl_put_last (l1 l2 : list (Z * Z)) (d : gmap Z Z) k v :
  k ∉ l2.*1 -> foldl put d (l1 ++ (k, v) :: l2) !! k = Some v.
Proof.
  intros Hk. rewrite foldl_app. simpl.
  rewrite foldl_put_other by done. unfold put. simpl. apply lookup_insert_eq.
Qed.

Lemma dom_foldl_put (kvs : list (Z * Z)) : forall d : gmap Z Z,
  dom (foldl put d kvs) = dom d ∪ list_to_set kvs.*1.
Proof.
  induction kvs as [|[k v] kvs IH]; intros d; simpl.
  - now rewrite (right_id_L ∅ (∪)).
  - rewrite IH. unfold put. simpl. rewrite dom_insert_L.
    rewrite (comm_L (∪) {[k]} (dom d)). now rewrite (assoc_L (∪)).
Qed.

Lemma fst_take_zip (ks vs : list Z) n :
  (n <= length vs)%nat -> (take n (zip ks vs)).*1 = take n ks.
Proof.
  intros H. rewrite zip_with_take. apply fst_zip.
  rewrite !length_take. lia.
Qed.

Lemma size_list_to_set_le (l : list Z) :
  (size (list_to_set l : gset Z) <= length l)%nat.
Proof.
  induction l as [|x l IH].
  - rewrite list_to_set_nil, size_empty. reflexivity.
  - rewrite list_to_set_cons, size_union_alt, size_singleton. cbn [length].
    assert (size (list_to_set l ∖ {[x]} : gset Z)
            <= size (list_to_set l : gset Z))%nat; [|lia].
    apply subseteq_size, subseteq_difference_l. reflexivity.
Qed.

(** ** Further properties of the code *)

(** X1: the loop raises [IndexError], leaving the world as it was, exactly
    when [keys] or [values] has fewer than [N] elements. *)
Theorem X1_loop_raises_iff_list_too_short N fr w :
  insert_all N fr w = (Raise IndexError, w) <->
  (length (keys fr) < Z.to_nat N \/ length (values fr) < Z.to_nat N)%nat.
Proof.
  split.
  - intros H.
    destruct (Nat.le_gt_cases (Z.to_nat N) (length (keys fr))) as [Hk|Hk];
      [|lia].
    destruct (Nat.le_gt_cases (Z.to_nat N) (length (values fr))) as [Hv|Hv];
      [|lia].
    rewrite insert_all_long in H by done. discriminate H.
  - apply insert_all_short.
Qed.

Lemma X1_witness :
  insert_all 3 (Frame [0; 1; 2]%Z [7; 8]%Z ∅) sample_world
  = (Raise IndexError, sample_world).
Proof.
  apply (proj2 (X1_loop_raises_iff_list_too_short 3
                  (Frame [0; 1; 2]%Z [7; 8]%Z ∅) sample_world)).
  right. simpl. lia.
Defined.

(** X2: a loop that returns leaves every key that is not among the first
    [N] elements of [keys] bound as before, or unbound as before. *)
Theorem X2_loop_keeps_other_entries N fr w fr' w' k :
  insert_all N fr w = (Ok fr', w') ->
  k ∉ take (Z.to_nat N) (keys fr) ->
  dictionary fr' !! k = dictionary fr !! k.
Proof.
  intros H Hk. apply insert_all_inv in H as (_ & Hv & -> & _).
  cbn [dictionary]. apply foldl_put_other. now rewrite fst_take_zip.
Qed.

Lemma X2_witness :
  dictionary (Frame [0; 1]%Z [7; 8]%Z (<[1%Z := 8%Z]> (<[0%Z := 7%Z]>
                (<[5%Z := 50%Z]> ∅)))) !! 5%Z
  = dictionary (Frame [0; 1]%Z [7; 8]%Z (<[5%Z := 50%Z]> ∅)) !! 5%Z.
Proof.
  apply (X2_loop_keeps_other_entries 2
           (Frame [0; 1]%Z [7; 8]%Z (<[5%Z := 50%Z]> ∅)) sample_world
           _ sample_world 5%Z).
  - vm_compute. reflexivity.
  - vm_compute. intros H. inversion H as [|? ? ? H']; subst.
    inversion H' as [|? ? ? H'']; subst. inversion H''.
Defined.

(** X3: when a key occurs several times among the first [N] elements of
    [keys], the value paired with its last occurrence is the one stored. *)
Theorem X3_loop_last_write_wins N fr w fr' w' (i : nat) k v :
  insert_all N fr w = (Ok fr', w') ->
  (i < Z.to_nat N)%nat ->
  keys fr !! i = Some k ->
  values fr !! i = Some v ->
  (forall j : nat, (i < j < Z.to_nat N)%nat -> keys fr !! j <> Some k) ->
  dictionary fr' !! k = Some v.
Proof.
  intros H Hi Hk Hv Hlast. apply insert_all_inv in H as (_ & _ & -> & _).
  cbn [dictionary].
  set (kvs := take (Z.to_nat N) (zip (keys fr) (values fr))).
  assert (Hkv : kvs !! i = Some (k, v)).
  { unfold kvs. rewrite lookup_take_lt by done.
    rewrite lookup_zip_with, Hk. simpl. now rewrite Hv. }
  rewrite <- (take_drop_middle kvs i (k, v) Hkv).
  apply foldl_put_last.
  intros Hin. apply list_elem_of_fmap in Hin as ([k' v'] & Hk' & Hin).
  simpl in Hk'. subst k'.
  apply list_elem_of_lookup in Hin as [j Hj].
  rewrite lookup_drop in Hj. unfold kvs in Hj.
  apply lookup_take_Some in Hj as [Hj Hlt].
  rewrite lookup_zip_with in Hj.
  destruct (keys fr !! (S i + j)%nat) as [k'|] eqn:E; [|discriminate Hj].
  cbn in Hj.
  destruct (values fr !! S (i + j)); [|discriminate Hj].
  cbn in Hj. assert (k' = k) as -> by congruence.
  apply (Hlast (S i + j)%nat); [lia | exact E].
Qed.

Lemma X3_witness :
  dictionary (Frame [4; 4; 9]%Z [1; 2; 3]%Z
                (<[9%Z := 3%Z]> (<[4%Z := 2%Z]> ∅))) !! 4%Z
  = Some 2%Z.
Proof.
  apply (X3_loop_last_write_wins 3 (Frame [4; 4; 9]%Z [1; 2; 3]%Z ∅)
           sample_world _ sample_world 1%nat 4%Z 2%Z).
  - vm_compute. reflexivity.
  - simpl. lia.
  - reflexivity.
  - reflexivity.
  - intros j Hj. assert (j = 2%nat) as -> by (simpl in Hj; lia).
    simpl. discriminate.
Defined.

(** X4: after a loop that returns, the keys of the dictionary are the
    keys it had before together with the first [N] elements of [keys];
    the dictionary has grown by at most [N] entries and has not shrunk. *)
Theorem X4_loop_key_set N fr w fr' w' :
  insert_all N fr w = (Ok fr', w') ->
  dom (dictionary fr')
  = dom (dictionary fr) ∪ list_to_set (take (Z.to_nat N) (keys fr)) /\
  (size (dictionary fr) <= size (dictionary fr'))%nat /\
  (size (dictionary fr') <= size (dictionary fr) + Z.to_nat N)%nat.
Proof.
  intros H. apply insert_all_inv in H as (Hk & Hv & -> & _).
  cbn [dictionary].
  assert (Hdom : dom (foldl put (dictionary fr)
                        (take (Z.to_nat N) (zip (keys fr) (values fr))))
                 = dom (dictionary fr)
                   ∪ list_to_set (take (Z.to_nat N) (keys fr))).
  { now rewrite dom_foldl_put, fst_take_zip. }
  split; [exact Hdom|].
  rewrite <- !size_dom, Hdom. split.
  - apply subseteq_size, union_subseteq_l.
  - rewrite size_union_alt.
    assert (size (list_to_set (take (Z.to_nat N) (keys fr))
                    ∖ dom (dictionary fr) : gset Z)
            <= Z.to_nat N)%nat; [|lia].
    etransitivity; [apply subseteq_size, subseteq_difference_l; reflexivity|].
    etransitivity; [apply size_list_to_set_le|].
    rewrite length_take. lia.
Qed.

Lemma X4_witness :
  (size (dictionary (Frame [4; 4; 9]%Z [1; 2; 3]%Z
                       (<[9%Z := 3%Z]> (<[4%Z := 2%Z]> ∅))))
   <= size (∅ : gmap Z Z) + Z.to_nat 3)%nat.
Proof.
  apply (X4_loop_key_set 3 (Frame [4; 4; 9]%Z [1; 2; 3]%Z ∅)
           sample_world _ sample_world).
  vm_compute. reflexivity.
Defined.


Lemma run_len N R w :
  (0 <= N)%Z -> len (dictionary (run_frame N R w)) = N.
Proof. intros H. unfold len. rewrite run_dictionary_size. lia. Qed.



(** X6: a run that returns has read the clock exactly four times and made
    exactly [N] draws (none for a negative [N]); [start], [start_time] and
    [end_time] are the first three readings, in that order. *)
Theorem X6_run_reads_clock_four_times rnd N R w l w' :
  main rnd N R w = (Ok l, w') ->
  readings w' = (4 + readings w)%nat /\
  drawn w' = (drawn w + Z.to_nat N)%nat /\
  entropy w' = entropy w /\
  ticks w' = ticks w /\
  start l = ticks w (readings w) /\
  start_time l = ticks w (1 + readings w)%nat /\
  end_time l = ticks w (2 + readings w)%nat.
Proof.
  intros H. apply main_inv in H as (_ & -> & ->). repeat split.
Qed.

Lemma X6_witness :
  readings (run_world exact 3 1000 sample_world) = 4%nat /\
  drawn (run_world exact 3 1000 sample_world) = 3%nat.
Proof.
  assert (H : main exact 3 1000 sample_world
              = (Ok (run_locals exact 3 1000 sample_world),
                 run_world exact 3 1000 sample_world))
    by (vm_compute; reflexivity).
  destruct (X6_run_reads_clock_four_times _ _ _ _ _ _ H)
    as (Hr & Hd & _).
  split; [exact Hr | exact Hd].
Defined.






(** X10: imported under any other name the file does nothing; run as a
    script it returns for every generator and clock, makes ten million
    draws and reports a dictionary of ten million entries. *)
Theorem X10_main_guard rnd name w :
  (name <> "__main__"%string -> module_body rnd name w = (Ok tt, w)) /\
  (name = "__main__"%string ->
   exists w' spent total,
     module_body rnd name w = (Ok tt, w') /\
     stdout w' = stdout w ++ report NUMBER_OF_KEYS spent NUMBER_OF_KEYS total /\
     Z.of_nat (drawn w') = (Z.of_nat (drawn w) + NUMBER_OF_KEYS)%Z).
Proof.
  split.
  - intros Hne. unfold module_body.
    now rewrite (proj2 (String.eqb_neq name "__main__") Hne).
  - intros ->. unfold module_body. rewrite String.eqb_refl.
    eexists _, _, _. split; [|split].
    + erewrite bind_ok; [reflexivity|].
      apply main_completes. left. unfold RANGE. lia.
    + unfold run_world. cbn [stdout].
      rewrite run_len by (unfold NUMBER_OF_KEYS; lia). reflexivity.
    + unfold run_world. cbn [drawn].
      rewrite Nat2Z.inj_add, Z2Nat.id by (unfold NUMBER_OF_KEYS; lia).
      reflexivity.
Qed.

Lemma X10_witness :
  module_body exact "py_speed" sample_world = (Ok tt, sample_world).
Proof.
  apply (proj1 (X10_main_guard exact "py_speed" sample_world)).
  discriminate.
Defined.
